(** * ddb: a command-line client for the Darango HTTP API

    A shallow embedding of [ddb/config.py], [ddb/client.py] and [ddb/cli.py].

    The program is glue code around [os.environ], [json], [httpx], [typer]
    and [rich].  The libraries are not part of the repository, so they enter
    the development through the class [platform] (the environment, the
    decoder, the network) and through the events a computation leaves in the
    world (a call handed to [httpx], a line handed to [rich]); everything the
    repository itself writes -- defaults, request construction, the
    classification of failures, the exit status -- is defined here, function
    by function, under the names of the source. *)

From Stdlib Require Import ZArith Ascii Floats.SpecFloat.
From stdpp Require Import base option list strings gmap fin_maps.

Local Open Scope Z_scope.
Local Open Scope string_scope.

(** ** Python values

    The values that travel through the program are the ones [json.loads]
    produces: [None], booleans, integers, floats, strings, lists and
    dictionaries keyed by strings.  [JNull] is Python's [None], so an absent
    optional argument and a decoded [null] are the same value, as in the
    source. *)

#[warnings="-register-all"]
Inductive Any : Type :=
| JNull
| JBool (b : bool)
| JInt (n : Z)
| JFloat (f : spec_float)
| JStr (s : string)
| JList (l : list Any)
| JDict (d : gmap string Any).

(** ** Exceptions and the objects they carry *)

(** What the program reads off an [httpx.Response]: the status code; the URL,
    reason phrase and content only feed the library's own methods. *)
Record response : Type := {
  status_code : Z;
  reason_phrase : string;
  response_url : string;
  content : string
}.

Inductive exn : Type :=
| DarangoError (message : Any) (status : option Z)
| HTTPStatusError (str_e : string) (resp : response)
| RequestError (str_e : string)
| JSONDecodeError (str_e : string)
| TypeError
| KeyError
| Exit (code : Z).

Inductive outcome (A : Type) : Type :=
| Returned (a : A)
| Raised (e : exn).
Arguments Returned {A} a.
Arguments Raised {A} e.

(** ** The world: requests put on the wire and lines put on the console *)

Record http_call : Type := {
  call_method : string;
  call_url : string;
  call_json : Any;
  call_params : Any;
  call_timeout : spec_float
}.

Inductive output : Type :=
| console_print_JSON (data : Any)
| rprint (markup : string).

Record world : Type := {
  sent : list http_call;
  console : list output
}.

(** A computation threads the world and either returns or raises. *)
Definition M (A : Type) : Type := world -> outcome A * world.

Definition ret {A} (a : A) : M A := fun w => (Returned a, w).

Definition raise {A} (e : exn) : M A := fun w => (Raised e, w).

Definition bind {A B} (m : M A) (k : A -> M B) : M B :=
  fun w => match m w with
           | (Returned a, w') => k a w'
           | (Raised e, w') => (Raised e, w')
           end.

(** [try: body except ...: handler]: [handler e = None] when no clause
    matches [e], which then keeps propagating. *)
Definition try_except {A} (body : M A) (handler : exn -> option (M A)) : M A :=
  fun w => match body w with
           | (Returned a, w') => (Returned a, w')
           | (Raised e, w') =>
               match handler e with
               | Some h => h w'
               | None => (Raised e, w')
               end
           end.

(** A library call that touches nothing in the world. *)
Definition lift {A} (o : outcome A) : M A := fun w => (o, w).

(** The [x ← m; k] and [m;; k] notations of stdpp sequence statements. *)
#[global] Instance M_ret : MRet M := @ret.
#[global] Instance M_bind : MBind M := fun A B k m => bind m k.

(** ** The platform: what the libraries and the operating system supply

    A library call is modelled by its result.  The failures kept are the
    ones the source names in an [except] clause; a failure of another class
    (an invalid URL, a recursion limit) is outside the model. *)

(** [json.loads(text)] and [response.json()]: [Loaded v] when the call
    returns [v], [Malformed str_e] when it raises a [JSONDecodeError] [e]
    with [str(e) = str_e].  What the decoder accepts is the decoder's
    business: Python's accepts [NaN], which is no JSON. *)
Inductive loads_result : Type :=
| Loaded (v : Any)
| Malformed (str_e : string).

(** [httpx.request(...)]: a response, or an [httpx.RequestError] [e] with
    [str(e) = str_e]. *)
Inductive reply : Type :=
| Responded (r : response)
| Failed (str_e : string).

Class platform : Type := {
  (** [os.environ] *)
  environ : gmap string string;
  (** [json.loads] on a command-line argument *)
  json_loads : string -> loads_result;
  (** [httpx.request]: the reply may depend on what was sent before *)
  network : list http_call -> http_call -> reply;
  (** [Response.raise_for_status]: [Some str_e] when it raises an
      [HTTPStatusError] [e] with [str(e) = str_e], [None] when it returns *)
  raise_for_status : response -> option string;
  (** [Response.json] *)
  response_json : response -> loads_result;
  (** [str(v)] for a value that is not a string *)
  py_repr : Any -> string
}.

(** A decoder call inside a computation: the value, or [JSONDecodeError]. *)
Definition loads (r : loads_result) : M Any :=
  match r with
  | Loaded v => ret v
  | Malformed str_e => raise (JSONDecodeError str_e)
  end.

(** ** Python built-ins used by the source *)

Module py.

(** [bool(v)]: the truth value that [if v:] and [v or w] test. *)
Definition truthy (v : Any) : bool :=
  match v with
  | JNull => false
  | JBool b => b
  | JInt n => negb (Z.eqb n 0)
  | JFloat (S754_zero _) => false
  | JFloat _ => true
  | JStr s => negb (String.eqb s "")
  | JList l => match l with [] => false | _ :: _ => true end
  | JDict d => match map_to_list d with [] => false | _ :: _ => true end
  end.

(** [o or d] for an optional string [o]: [None] and [""] are both false. *)
Definition or_ (o : option string) (d : string) : string :=
  match o with
  | Some s => if String.eqb s "" then d else s
  | None => d
  end.

(** [k in s] for two strings: [k] occurs in [s]. *)
Fixpoint is_substring (k s : string) : bool :=
  String.prefix k s ||
  match s with
  | EmptyString => false
  | String _ s' => is_substring k s'
  end.

(** [x == k] for a string [k]: only an equal string compares equal. *)
Definition eq_str (k : string) (x : Any) : bool :=
  match x with
  | JStr s => String.eqb s k
  | _ => false
  end.

(** [k in v] *)
Definition contains (k : string) (v : Any) : outcome bool :=
  match v with
  | JDict d => Returned (bool_decide (is_Some (d !! k)))
  | JList l => Returned (existsb (eq_str k) l)
  | JStr s => Returned (is_substring k s)
  | JNull | JBool _ | JInt _ | JFloat _ => Raised TypeError
  end.

(** [v[k]] for a string [k] *)
Definition getitem (v : Any) (k : string) : outcome Any :=
  match v with
  | JDict d => match d !! k with
               | Some x => Returned x
               | None => Raised KeyError
               end
  | _ => Raised TypeError
  end.

(** [s.rstrip("/")] *)
Fixpoint rstrip_slash (s : string) : string :=
  match s with
  | EmptyString => EmptyString
  | String c s' =>
      match rstrip_slash s' with
      | EmptyString => if Ascii.eqb c "/"%char then EmptyString else String c EmptyString
      | r => String c r
      end
  end.

(** [str(v)], as an f-string formats [v] *)
Definition str `{platform} (v : Any) : string :=
  match v with
  | JStr s => s
  | _ => py_repr v
  end.

(** [os.environ.get(k, d)] *)
Definition environ_get `{platform} (k d : string) : string :=
  default d (environ !! k).

End py.

(** ** [ddb/config.py] *)

Module config.
Section config.
Context `{platform}.

Definition get_darango_api : string :=
  py.environ_get "DARANGO_API" "http://localhost:8080".

Definition get_default_db : string :=
  py.environ_get "ARANGO_DB" "_system".

End config.
End config.

(** ** [ddb/client.py] *)

Module client.
Section client.
Context `{platform}.

Record DarangoClient : Type := {
  base_url : string;
  timeout : spec_float
}.

(** The float [30.0], the default of [timeout]. *)
Definition default_timeout : spec_float :=
  S754_finite false (15 * 2 ^ 49) (-48).

(** [DarangoClient.__init__] *)
Definition __init__ (base_url : option string) (timeout : spec_float)
  : DarangoClient :=
  {| base_url := py.rstrip_slash (py.or_ base_url config.get_darango_api);
     timeout := timeout |}.

(** [httpx.request(method, url, json=json, params=params, timeout=timeout)]:
    the call goes on the wire, then the network answers. *)
Definition httpx_request (method url : string) (json params : Any)
    (timeout : spec_float) : M response :=
  fun w =>
    let call := {| call_method := method; call_url := url;
                   call_json := json; call_params := params;
                   call_timeout := timeout |} in
    (match network (sent w) call with
     | Responded r => Returned r
     | Failed str_e => Raised (RequestError str_e)
     end,
     {| sent := sent w ++ [call]; console := console w |}).

(** [response.raise_for_status()] *)
Definition response_raise_for_status (r : response) : M unit :=
  match raise_for_status r with
  | Some str_e => raise (HTTPStatusError str_e r)
  | None => ret tt
  end.

(** The inner [try] of the [HTTPStatusError] clause: the value [error_msg]
    holds when the [raise] below it is reached. *)
Definition error_message (str_e : string) (resp : response) : M Any :=
  let error_msg := JStr str_e in
  try_except
    (error_data ← loads (response_json resp);
     has_message ← lift (py.contains "errorMessage" error_data);
     if has_message : bool then
       lift (py.getitem error_data "errorMessage")
     else
       has_error ← lift (py.contains "error" error_data);
       if has_error : bool then
         lift (py.getitem error_data "error")
       else
         ret error_msg)
    (fun _ => Some (ret error_msg)).

Definition _request (self : DarangoClient) (method path : string)
    (json params : Any) : M Any :=
  let url := base_url self ++ path in
  try_except
    (response ← httpx_request method url json params (timeout self);
     response_raise_for_status response;;
     loads (response_json response))
    (fun e =>
       match e with
       | HTTPStatusError str_e resp =>
           Some (error_msg ← error_message str_e resp;
                 raise (DarangoError error_msg (Some (status_code resp))))
       | RequestError str_e =>
           Some (raise (DarangoError (JStr ("Request failed: " ++ str_e)) None))
       | _ => None
       end).

Definition create_collection (self : DarangoClient)
    (db name collection_type : string) : M Any :=
  let type_code := if String.eqb collection_type "edge" then 3 else 2 in
  _request self "POST" ("/_db/" ++ db ++ "/_api/collection")
    (JDict (<["type" := JInt type_code]> {[ "name" := JStr name ]}))
    JNull.

Definition query (self : DarangoClient) (db aql : string) (bind_vars : Any)
  : M Any :=
  let body : gmap string Any := {[ "query" := JStr aql ]} in
  let body := if py.truthy bind_vars
              then <["bindVars" := bind_vars]> body
              else body in
  _request self "POST" ("/_db/" ++ db ++ "/_api/cursor") (JDict body) JNull.

Definition get_document (self : DarangoClient) (db collection key : string)
  : M Any :=
  _request self "GET"
    ("/_db/" ++ db ++ "/_api/document/" ++ collection ++ "/" ++ key)
    JNull JNull.

Definition insert_document (self : DarangoClient) (db collection : string)
    (document : Any) : M Any :=
  _request self "POST" ("/_db/" ++ db ++ "/_api/document/" ++ collection)
    document JNull.

Definition update_document (self : DarangoClient)
    (db collection key : string) (document : Any) : M Any :=
  _request self "PATCH"
    ("/_db/" ++ db ++ "/_api/document/" ++ collection ++ "/" ++ key)
    document JNull.

Definition delete_document (self : DarangoClient) (db collection key : string)
  : M Any :=
  _request self "DELETE"
    ("/_db/" ++ db ++ "/_api/document/" ++ collection ++ "/" ++ key)
    JNull JNull.

End client.
End client.

(** ** [ddb/cli.py] *)

Module cli.
Section cli.
Context `{platform}.

Definition get_client : client.DarangoClient :=
  client.__init__ None client.default_timeout.

(** [console.print(JSON(json.dumps(data)))] *)
Definition print_json (data : Any) : M unit :=
  fun w =>
    (Returned tt,
     {| sent := sent w; console := console w ++ [console_print_JSON data] |}).

(** [rprint(f"[red]Error:[/red] {message}")] *)
Definition print_error (message : Any) : M unit :=
  fun w =>
    (Returned tt,
     {| sent := sent w;
        console := console w ++ [rprint ("[red]Error:[/red] " ++ py.str message)] |}).

(** The clause [except DarangoError as e] that closes every command. *)
Definition except_DarangoError (e : exn) : option (M unit) :=
  match e with
  | DarangoError message _ => Some (print_error message;; raise (Exit 1))
  | _ => None
  end.

(** The clause [except json.JSONDecodeError as e] around [json.loads]; [what]
    is the text the message starts with. *)
Definition except_JSONDecodeError (what : string) (e : exn) : option (M Any) :=
  match e with
  | JSONDecodeError str_e =>
      Some (print_error (JStr (what ++ str_e));; raise (Exit 1))
  | _ => None
  end.

Definition create (name : string) (db : option string)
    (collection_type : string) : M unit :=
  let db := py.or_ db config.get_default_db in
  let client := get_client in
  try_except
    (result ← client.create_collection client db name collection_type;
     print_json result)
    except_DarangoError.

Definition query (aql : string) (db : option string) (bind : option string)
  : M unit :=
  let db := py.or_ db config.get_default_db in
  let client := get_client in
  bind_vars ←
    match bind with
    | Some text =>
        if py.truthy (JStr text) then
          try_except (loads (json_loads text))
            (except_JSONDecodeError "Invalid JSON for bind variables: ")
        else ret JNull
    | None => ret JNull
    end;
  try_except
    (result ← client.query client db aql bind_vars;
     print_json result)
    except_DarangoError.

Definition get_doc (db : option string) (col key : string) : M unit :=
  let db := py.or_ db config.get_default_db in
  let client := get_client in
  try_except
    (result ← client.get_document client db col key;
     print_json result)
    except_DarangoError.

Definition insert (db : option string) (col doc : string) : M unit :=
  let db := py.or_ db config.get_default_db in
  let client := get_client in
  document ←
    try_except (loads (json_loads doc))
      (except_JSONDecodeError "Invalid JSON for document: ");
  try_except
    (result ← client.insert_document client db col document;
     print_json result)
    except_DarangoError.

Definition update (db : option string) (col key doc : string) : M unit :=
  let db := py.or_ db config.get_default_db in
  let client := get_client in
  document ←
    try_except (loads (json_loads doc))
      (except_JSONDecodeError "Invalid JSON for document: ");
  try_except
    (result ← client.update_document client db col key document;
     print_json result)
    except_DarangoError.

Definition delete (db : option string) (col key : string) : M unit :=
  let db := py.or_ db config.get_default_db in
  let client := get_client in
  try_except
    (result ← client.delete_document client db col key;
     print_json result)
    except_DarangoError.

(** An invocation as typed on the command line: the sub-command with its
    required arguments, and each option either given or left out. *)
Inductive command : Type :=
| Create (name : string) (db type_ : option string)
| Query (aql : string) (db bind : option string)
| Get (db : option string) (col key : string)
| Insert (db : option string) (col doc : string)
| Update (db : option string) (col key doc : string)
| Delete (db : option string) (col key : string).

(** [app()]: typer fills the declared default of an option left out ([None]
    for [--db] and [--bind], ["document"] for [--type]) and calls the
    command's function. *)
Definition app (c : command) : M unit :=
  match c with
  | Create name db type_ => create name db (default "document" type_)
  | Query aql db bind => query aql db bind
  | Get db col key => get_doc db col key
  | Insert db col doc => insert db col doc
  | Update db col key doc => update db col key doc
  | Delete db col key => delete db col key
  end.

Definition main : command -> M unit := app.

(** The status the process ends with: [0] when [main] returns, the code of a
    [typer.Exit], and [1] when any other exception leaves [main]. *)
Definition exit_status (o : outcome unit) : Z :=
  match o with
  | Returned _ => 0
  | Raised (Exit code) => code
  | Raised _ => 1
  end.

End cli.
End cli.

(** ** Vocabulary for the statements

    The definitions below add no behaviour; they name what the statements
    talk about: the call one request puts on the wire, the endpoint operation
    a command ends in, and the database name a command resolves. *)

Section vocabulary.
Context `{platform}.

(** The call [_request] hands to [httpx.request]. *)
Definition wire_call (self : client.DarangoClient) (method path : string)
    (json params : Any) : http_call :=
  {| call_method := method;
     call_url := client.base_url self ++ path;
     call_json := json;
     call_params := params;
     call_timeout := client.timeout self |}.

(** The world once [call] is on the wire. *)
Definition after_call (w : world) (call : http_call) : world :=
  {| sent := sent w ++ [call]; console := console w |}.

(** The world once [line] is on the console. *)
Definition after_output (w : world) (line : output) : world :=
  {| sent := sent w; console := console w ++ [line] |}.

(** An endpoint operation with the arguments it is called with. *)
Inductive operation : Type :=
| create_collection_op (db name collection_type : string)
| query_op (db aql : string) (bind_vars : Any)
| get_document_op (db collection key : string)
| insert_document_op (db collection : string) (document : Any)
| update_document_op (db collection key : string) (document : Any)
| delete_document_op (db collection key : string).

Definition operation_db (op : operation) : string :=
  match op with
  | create_collection_op db _ _ | query_op db _ _ | get_document_op db _ _
  | insert_document_op db _ _ | update_document_op db _ _ _
  | delete_document_op db _ _ => db
  end.

(** Calling the method of the client that [op] names. *)
Definition perform (self : client.DarangoClient) (op : operation) : M Any :=
  match op with
  | create_collection_op db name collection_type =>
      client.create_collection self db name collection_type
  | query_op db aql bind_vars => client.query self db aql bind_vars
  | get_document_op db collection key =>
      client.get_document self db collection key
  | insert_document_op db collection document =>
      client.insert_document self db collection document
  | update_document_op db collection key document =>
      client.update_document self db collection key document
  | delete_document_op db collection key =>
      client.delete_document self db collection key
  end.

(** The [--db] option of an invocation. *)
Definition command_db (c : cli.command) : option string :=
  match c with
  | cli.Create _ db _ | cli.Query _ db _ | cli.Get db _ _
  | cli.Insert db _ _ | cli.Update db _ _ _ | cli.Delete db _ _ => db
  end.

(** The same invocation with another [--db] option. *)
Definition with_db (db : option string) (c : cli.command) : cli.command :=
  match c with
  | cli.Create name _ type_ => cli.Create name db type_
  | cli.Query aql _ bind => cli.Query aql db bind
  | cli.Get _ col key => cli.Get db col key
  | cli.Insert _ col doc => cli.Insert db col doc
  | cli.Update _ col key doc => cli.Update db col key doc
  | cli.Delete _ col key => cli.Delete db col key
  end.

(** The JSON-bearing argument of an invocation, as the command reads it:
    [--doc] for insert and update, [--bind] for query when it is given. *)
Definition json_argument (c : cli.command) : option string :=
  match c with
  | cli.Query _ _ bind => bind
  | cli.Insert _ _ doc | cli.Update _ _ _ doc => Some doc
  | cli.Create _ _ _ | cli.Get _ _ _ | cli.Delete _ _ _ => None
  end.

(** How the error line of a malformed argument starts. *)
Definition argument_label (c : cli.command) : string :=
  match c with
  | cli.Query _ _ _ => "Invalid JSON for bind variables: "
  | _ => "Invalid JSON for document: "
  end.

(** The first half of a command, up to the call of the client: the
    arguments are decoded and the operation is chosen, for the database
    name [db]. *)
Definition prepare (db : string) (c : cli.command) : M operation :=
  match c with
  | cli.Create name _ type_ =>
      ret (create_collection_op db name (default "document" type_))
  | cli.Query aql _ bind =>
      bind_vars ←
        match bind with
        | Some text =>
            if py.truthy (JStr text) then
              try_except (loads (json_loads text))
                (cli.except_JSONDecodeError "Invalid JSON for bind variables: ")
            else ret JNull
        | None => ret JNull
        end;
      ret (query_op db aql bind_vars)
  | cli.Get _ col key => ret (get_document_op db col key)
  | cli.Insert _ col doc =>
      document ←
        try_except (loads (json_loads doc))
          (cli.except_JSONDecodeError "Invalid JSON for document: ");
      ret (insert_document_op db col document)
  | cli.Update _ col key doc =>
      document ←
        try_except (loads (json_loads doc))
          (cli.except_JSONDecodeError "Invalid JSON for document: ");
      ret (update_document_op db col key document)
  | cli.Delete _ col key => ret (delete_document_op db col key)
  end.

(** The second half of a command: the operation is called, its result is
    printed, a [DarangoError] becomes an error line and [Exit(1)]. *)
Definition conclude (op : operation) : M unit :=
  try_except
    (result ← perform cli.get_client op;
     cli.print_json result)
    cli.except_DarangoError.

End vocabulary.

(** ** The specification's own words

    Three definitions written from the specification, not from the source;
    the theorems compare the source with them. *)

Section specification.
Context `{platform}.

(** The message of a remote failure, by the priority rule of the
    specification: the field [errorMessage] of the decoded body if there is
    one, else the field [error], else the text of the status failure. *)
Definition priority_message (str_e : string) (resp : response) : Any :=
  match response_json resp with
  | Loaded (JDict d) =>
      match d !! "errorMessage" with
      | Some v => v
      | None =>
          match d !! "error" with
          | Some v => v
          | None => JStr str_e
          end
      end
  | _ => JStr str_e
  end.

(** Bind variables that are absent, in the plain sense: Python's [None]. *)
Definition is_None (v : Any) : bool :=
  match v with
  | JNull => true
  | _ => false
  end.

(** The operation table: [operation_table absent op method path body] when
    the row of [op] gives the request [method path] with the JSON body
    [body] ([JNull], Python's [None], for a request without a body).  The
    type code of a collection is [3] for the type [edge] and [2] for any
    other.  The body of a query has the field [bindVars] unless the bind
    variables are absent; [absent] says which bind variables count as
    absent.  Each operation has one row, and the row gives one request. *)
Inductive operation_table (absent : Any -> bool)
  : operation -> string -> string -> Any -> Prop :=
| row_create_collection db name collection_type :
    operation_table absent (create_collection_op db name collection_type)
      "POST" ("/_db/" ++ db ++ "/_api/collection")
      (JDict (<["type" := JInt (if decide (collection_type = "edge")
                                then 3 else 2)]>
              {[ "name" := JStr name ]}))
| row_query db aql bind_vars :
    absent bind_vars = true ->
    operation_table absent (query_op db aql bind_vars)
      "POST" ("/_db/" ++ db ++ "/_api/cursor")
      (JDict {[ "query" := JStr aql ]})
| row_query_bindVars db aql bind_vars :
    absent bind_vars = false ->
    operation_table absent (query_op db aql bind_vars)
      "POST" ("/_db/" ++ db ++ "/_api/cursor")
      (JDict (<["bindVars" := bind_vars]> {[ "query" := JStr aql ]}))
| row_get_document db col key :
    operation_table absent (get_document_op db col key)
      "GET" ("/_db/" ++ db ++ "/_api/document/" ++ col ++ "/" ++ key)
      JNull
| row_insert_document db col document :
    operation_table absent (insert_document_op db col document)
      "POST" ("/_db/" ++ db ++ "/_api/document/" ++ col)
      document
| row_update_document db col key document :
    operation_table absent (update_document_op db col key document)
      "PATCH" ("/_db/" ++ db ++ "/_api/document/" ++ col ++ "/" ++ key)
      document
| row_delete_document db col key :
    operation_table absent (delete_document_op db col key)
      "DELETE" ("/_db/" ++ db ++ "/_api/document/" ++ col ++ "/" ++ key)
      JNull.

(** The table as the specification words it: bind variables are absent when
    they are [None]. *)
Definition stated_table : operation -> string -> string -> Any -> Prop :=
  operation_table is_None.

(** The table as the client reads it: bind variables are absent when they
    are false in Python's sense, the empty dictionary among them. *)
Definition falsy_table : operation -> string -> string -> Any -> Prop :=
  operation_table (fun v => negb (py.truthy v)).

(** The default database name of the specification: the one the environment
    gives, else the constant ["_system"]. *)
Definition environment_default : string :=
  match environ !! "ARANGO_DB" with
  | Some from_environment => from_environment
  | None => "_system"
  end.

(** The database name by the precedence of the specification: the [--db]
    argument if given, else the default. *)
Definition stated_database (db : option string) : string :=
  match db with
  | Some given => given
  | None => environment_default
  end.

(** The same precedence with one more case: a [--db] argument that is the
    empty string counts as not given. *)
Definition resolved_database (db : option string) : string :=
  match db with
  | Some given => if decide (given = "") then environment_default else given
  | None => environment_default
  end.

End specification.

(** ** A platform to run the program on

    One concrete platform for the examples: an environment, a decoder that
    agrees with [json.loads] on the few texts the examples use, and a server
    that knows one document. *)

Module sample.

(** [json.loads] on the texts of the examples.  It decodes four texts --
    [NaN] among them, which Python accepts although it is no JSON -- and
    reports the others as malformed, with the message Python gives for the
    empty text and for the text [not json], the two rejected texts the
    examples use. *)
Definition sample_loads (text : string) : loads_result :=
  if String.eqb text "{}" then Loaded (JDict ∅)
  else if String.eqb text "null" then Loaded JNull
  else if String.eqb text "[1]" then Loaded (JList [JInt 1])
  else if String.eqb text "NaN" then Loaded (JFloat S754_nan)
  else Malformed "Expecting value: line 1 column 1 (char 0)".

(** A server that answers [404] with an ArangoDB error body below
    [/_db/_system/_api/document/test/missing], [200] elsewhere, and is
    unreachable for the method [TRACE]. *)
Definition sample_network (_ : list http_call) (call : http_call) : reply :=
  if String.eqb (call_method call) "TRACE" then
    Failed "[Errno 111] Connection refused"
  else if String.eqb (call_url call)
            "http://localhost:8080/_db/_system/_api/document/test/missing"
  then Responded {| status_code := 404; reason_phrase := "Not Found";
                    response_url := call_url call;
                    content := "not-found" |}
  else Responded {| status_code := 200; reason_phrase := "OK";
                    response_url := call_url call;
                    content := "ok" |}.

Definition sample_raise_for_status (r : response) : option string :=
  if Z.leb 200 (status_code r) && Z.leb (status_code r) 299 then None
  else Some ("Client error '" ++ reason_phrase r ++ "' for url '"
             ++ response_url r ++ "'").

Definition sample_response_json (r : response) : loads_result :=
  if String.eqb (content r) "not-found" then
    Loaded (JDict (<["errorMessage" := JStr "document not found"]>
                   (<["error" := JBool true]>
                    {[ "code" := JInt 404 ]})))
  else if String.eqb (content r) "ok" then
    Loaded (JDict {[ "_key" := JStr "doc1" ]})
  else Malformed "Expecting value: line 1 column 1 (char 0)".

Definition sample_repr (v : Any) : string :=
  match v with
  | JNull => "None"
  | JBool true => "True"
  | JBool false => "False"
  | _ => "..."
  end.

(** Nothing set in the environment. *)
Definition bare : platform :=
  {| environ := ∅;
     json_loads := sample_loads;
     network := sample_network;
     raise_for_status := sample_raise_for_status;
     response_json := sample_response_json;
     py_repr := sample_repr |}.

(** [ARANGO_DB] set to the empty string. *)
Definition empty_default : platform :=
  {| environ := {[ "ARANGO_DB" := EmptyString ]};
     json_loads := sample_loads;
     network := sample_network;
     raise_for_status := sample_raise_for_status;
     response_json := sample_response_json;
     py_repr := sample_repr |}.

(** [ARANGO_DB] set to [mydb]. *)
Definition mydb_default : platform :=
  {| environ := {[ "ARANGO_DB" := "mydb" ]};
     json_loads := sample_loads;
     network := sample_network;
     raise_for_status := sample_raise_for_status;
     response_json := sample_response_json;
     py_repr := sample_repr |}.

(** A server nobody answers for: every call ends in a transport error. *)
Definition unreachable : platform :=
  {| environ := ∅;
     json_loads := sample_loads;
     network := fun _ _ => Failed "[Errno 111] Connection refused";
     raise_for_status := sample_raise_for_status;
     response_json := sample_response_json;
     py_repr := sample_repr |}.

(** A proxy that answers every call with [200] and a page of HTML. *)
Definition garbled : platform :=
  {| environ := ∅;
     json_loads := sample_loads;
     network := fun _ call =>
       Responded {| status_code := 200; reason_phrase := "OK";
                    response_url := call_url call;
                    content := "<html>" |};
     raise_for_status := sample_raise_for_status;
     response_json := sample_response_json;
     py_repr := sample_repr |}.

(** [DARANGO_API] set to a URL that ends in slashes. *)
Definition custom_api : platform :=
  {| environ := {[ "DARANGO_API" := "http://custom:9090//" ]};
     json_loads := sample_loads;
     network := sample_network;
     raise_for_status := sample_raise_for_status;
     response_json := sample_response_json;
     py_repr := sample_repr |}.

Definition nothing_yet : world := {| sent := []; console := [] |}.

(** The reply of the sample server for the missing document. *)
Definition not_found : response :=
  {| status_code := 404; reason_phrase := "Not Found";
     response_url :=
       "http://localhost:8080/_db/_system/_api/document/test/missing";
     content := "not-found" |}.

End sample.

(** ** The request executor *)

Section request_executor.
Context `{platform}.

(** The inner [try] of [_request] computes the message of the priority rule
    and leaves the world alone. *)
Lemma error_message_priority (str_e : string) (resp : response) (w : world) :
  client.error_message str_e resp w =
  (Returned (priority_message str_e resp), w).
Proof.
  unfold client.error_message, priority_message, try_except.
  unfold mbind, M_bind, bind.
  destruct (response_json resp) as [v|m]; simpl; [|reflexivity].
  destruct v; simpl; try reflexivity.
  - (* a string *)
    unfold lift. destruct (py.is_substring "errorMessage" s); simpl; [reflexivity|].
    destruct (py.is_substring "error" s); reflexivity.
  - (* a list *)
    unfold lift. destruct (existsb (py.eq_str "errorMessage") l); simpl; [reflexivity|].
    destruct (existsb (py.eq_str "error") l); reflexivity.
  - (* a dictionary *)
    unfold lift, py.getitem.
    destruct (d !! "errorMessage") as [x|] eqn:E1.
    + rewrite bool_decide_eq_true_2 by eauto. reflexivity.
    + rewrite bool_decide_eq_false_2 by (intros [x Hx]; congruence). simpl.
      destruct (d !! "error") as [y|] eqn:E2.
      * rewrite bool_decide_eq_true_2 by eauto. reflexivity.
      * rewrite bool_decide_eq_false_2 by (intros [x Hx]; congruence).
        reflexivity.
Qed.

(** Every way [_request] can end, read off the reply of the network: one call
    goes on the wire, and the reply alone decides the result. *)
Lemma _request_cases (self : client.DarangoClient) (method path : string)
    (json params : Any) (w : world) :
  let call := wire_call self method path json params in
  client._request self method path json params w =
  (match network (sent w) call with
   | Failed str_e =>
       Raised (DarangoError (JStr ("Request failed: " ++ str_e)) None)
   | Responded resp =>
       match raise_for_status resp with
       | Some str_e =>
           Raised (DarangoError (priority_message str_e resp)
                     (Some (status_code resp)))
       | None =>
           match response_json resp with
           | Loaded v => Returned v
           | Malformed str_e => Raised (JSONDecodeError str_e)
           end
       end
   end, after_call w call).
Proof.
  intros call. unfold client._request, try_except.
  unfold mbind, M_bind, bind, client.httpx_request. simpl.
  fold (wire_call self method path json params). fold call.
  fold (after_call w call).
  destruct (network (sent w) call) as [resp|str_e]; simpl; [|reflexivity].
  unfold client.response_raise_for_status.
  destruct (raise_for_status resp) as [str_e|]; simpl.
  - rewrite error_message_priority. reflexivity.
  - destruct (response_json resp); reflexivity.
Qed.

(** C1: a response with a 4xx or 5xx status makes [_request] raise a
    [DarangoError] whose message follows the priority rule -- the field
    [errorMessage] of the decoded body, else the field [error], else the
    text of the status failure -- and whose status code is the one of the
    response.  The first hypothesis is the contract of the library:
    [raise_for_status] raises on these codes. *)
Theorem request_error_status (self : client.DarangoClient)
    (method path : string) (json params : Any) (w : world) (resp : response) :
  (forall r, 400 <= status_code r <= 599 -> is_Some (raise_for_status r)) ->
  network (sent w) (wire_call self method path json params) = Responded resp ->
  400 <= status_code resp <= 599 ->
  exists str_e,
    raise_for_status resp = Some str_e /\
    client._request self method path json params w =
    (Raised (DarangoError (priority_message str_e resp)
               (Some (status_code resp))),
     after_call w (wire_call self method path json params)).
Proof.
  intros Hlibrary Hreply Hstatus.
  destruct (Hlibrary resp Hstatus) as [str_e Hraise].
  exists str_e. split; [exact Hraise|].
  rewrite _request_cases. cbv zeta. now rewrite Hreply, Hraise.
Qed.

(** C6: a transport failure makes [_request] raise a [DarangoError] whose
    message is [Request failed: ] followed by the text of the transport
    error, without a status code; the world shows the one call that failed
    and no other. *)
Theorem request_transport_failure (self : client.DarangoClient)
    (method path : string) (json params : Any) (w : world) (str_e : string) :
  network (sent w) (wire_call self method path json params) = Failed str_e ->
  client._request self method path json params w =
  (Raised (DarangoError (JStr ("Request failed: " ++ str_e)) None),
   {| sent := sent w ++ [wire_call self method path json params];
      console := console w |}).
Proof.
  intros Hreply. rewrite _request_cases. cbv zeta. now rewrite Hreply.
Qed.

End request_executor.

Lemma sample_raise_for_status_error (r : response) :
  400 <= status_code r <= 599 -> is_Some (sample.sample_raise_for_status r).
Proof.
  intros Hr. unfold sample.sample_raise_for_status.
  destruct (Z.leb_spec 200 (status_code r)); [|lia].
  destruct (Z.leb_spec (status_code r) 299); [lia|].
  simpl. eauto.
Qed.

Lemma request_error_status_witness :
  exists str_e,
    @raise_for_status sample.bare sample.not_found = Some str_e /\
    @client._request sample.bare (@cli.get_client sample.bare)
      "GET" "/_db/_system/_api/document/test/missing" JNull JNull
      sample.nothing_yet =
    (Raised (DarangoError (@priority_message sample.bare str_e sample.not_found)
               (Some (status_code sample.not_found))),
     after_call sample.nothing_yet
       (wire_call (@cli.get_client sample.bare)
          "GET" "/_db/_system/_api/document/test/missing" JNull JNull)).
Proof.
  apply (@request_error_status sample.bare).
  - exact sample_raise_for_status_error.
  - vm_compute. reflexivity.
  - simpl. lia.
Defined.

(** The sample server's reply for the missing document carries both fields;
    the message is the one under [errorMessage]. *)
Example request_missing_document :
  (@client._request sample.bare (@cli.get_client sample.bare)
     "GET" "/_db/_system/_api/document/test/missing" JNull JNull
     sample.nothing_yet).1 =
  Raised (DarangoError (JStr "document not found") (Some 404)).
Proof. vm_compute. reflexivity. Qed.

Lemma request_transport_failure_witness :
  @client._request sample.bare (@cli.get_client sample.bare)
    "TRACE" "/_db/_system/_api/version" JNull JNull sample.nothing_yet =
  (Raised (DarangoError
             (JStr "Request failed: [Errno 111] Connection refused") None),
   {| sent := [wire_call (@cli.get_client sample.bare)
                 "TRACE" "/_db/_system/_api/version" JNull JNull];
      console := [] |}).
Proof.
  apply (@request_transport_failure sample.bare).
  vm_compute. reflexivity.
Defined.

(** ** The endpoint operations *)

Section endpoint_operations.
Context `{platform}.

(** [_request] puts exactly one call on the wire, whatever the reply. *)
Lemma _request_sent (self : client.DarangoClient) (method path : string)
    (json params : Any) (w : world) :
  sent (client._request self method path json params w).2 =
  (sent w ++ [wire_call self method path json params])%list.
Proof. rewrite _request_cases. reflexivity. Qed.

(** The empty dictionary is false. *)
Lemma truthy_empty_dict : py.truthy (JDict ∅) = false.
Proof. unfold py.truthy. now rewrite map_to_list_empty. Qed.

(** The body of a query: the field [bindVars] is there exactly when the bind
    variables are true. *)
Lemma query_request (self : client.DarangoClient) (db aql : string)
    (bind_vars : Any) :
  client.query self db aql bind_vars =
  client._request self "POST" ("/_db/" ++ db ++ "/_api/cursor")
    (JDict (if py.truthy bind_vars
            then <["bindVars" := bind_vars]> {[ "query" := JStr aql ]}
            else {[ "query" := JStr aql ]}))
    JNull.
Proof. reflexivity. Qed.

(** The table gives each operation one request. *)
Lemma operation_table_functional (absent : Any -> bool) (op : operation)
    (method method' path path' : string) (body body' : Any) :
  operation_table absent op method path body ->
  operation_table absent op method' path' body' ->
  method' = method /\ path' = path /\ body' = body.
Proof.
  intros Hrow Hrow'.
  destruct Hrow; inversion Hrow'; subst; auto; congruence.
Qed.

(** Every operation is the one call of [_request] that the table gives,
    with bind variables absent when they are false. *)
Lemma perform_request (self : client.DarangoClient) (op : operation) :
  exists method path body,
    falsy_table op method path body /\
    perform self op = client._request self method path body JNull.
Proof.
  unfold falsy_table.
  destruct op as [db name ct|db aql bv|db col key|db col doc|db col key doc
                 |db col key]; simpl.
  - unfold client.create_collection. do 3 eexists.
    split; [constructor|].
    destruct (String.eqb_spec ct "edge"), (decide (ct = "edge"));
      try congruence; reflexivity.
  - rewrite query_request.
    destruct (py.truthy bv) eqn:Hbv; do 3 eexists.
    + split; [apply row_query_bindVars; now rewrite Hbv|reflexivity].
    + split; [apply row_query; now rewrite Hbv|reflexivity].
  - do 3 eexists. split; [constructor|reflexivity].
  - do 3 eexists. split; [constructor|reflexivity].
  - do 3 eexists. split; [constructor|reflexivity].
  - do 3 eexists. split; [constructor|reflexivity].
Qed.

(** C2: a query called without bind variables is the request
    [POST /_db/{db}/_api/cursor] whose body is the dictionary with the single
    field [query]: the call on the wire has no field [bindVars].  The command
    without [--bind] calls the operation in just that way. *)
Theorem query_without_bind_vars (self : client.DarangoClient)
    (db aql : string) (w : world) :
  let body : gmap string Any := {[ "query" := JStr aql ]} in
  client.query self db aql JNull w =
    client._request self "POST" ("/_db/" ++ db ++ "/_api/cursor")
      (JDict body) JNull w /\
  sent (client.query self db aql JNull w).2 =
    (sent w ++ [wire_call self "POST" ("/_db/" ++ db ++ "/_api/cursor")
                 (JDict body) JNull])%list /\
  body !! "query" = Some (JStr aql) /\
  body !! "bindVars" = None /\
  dom body = {[ "query" ]} /\
  (forall option_db,
     cli.app (cli.Query aql option_db None) w =
     conclude
       (query_op (py.or_ option_db config.get_default_db) aql JNull) w).
Proof.
  intros body. rewrite query_request. simpl py.truthy. cbv iota.
  split; [reflexivity|]. split; [apply _request_sent|].
  subst body. split; [apply lookup_singleton_eq|].
  split; [now apply lookup_singleton_ne|].
  split; [apply dom_singleton_L|reflexivity].
Qed.

(** C9: a query called with the empty dictionary of bind variables is the
    same computation as the query called without bind variables, and the one
    call it puts on the wire has the body with the single field [query]. *)
Theorem query_empty_bind_vars (self : client.DarangoClient)
    (db aql : string) (w : world) :
  client.query self db aql (JDict ∅) w = client.query self db aql JNull w /\
  sent (client.query self db aql (JDict ∅) w).2 =
    (sent w ++ [wire_call self "POST" ("/_db/" ++ db ++ "/_api/cursor")
                 (JDict {[ "query" := JStr aql ]}) JNull])%list /\
  ({[ "query" := JStr aql ]} : gmap string Any) !! "bindVars" = None.
Proof.
  rewrite !query_request, truthy_empty_dict. simpl py.truthy. cbv iota.
  split; [reflexivity|]. split; [apply _request_sent|].
  now apply lookup_singleton_ne.
Qed.

(** C3: creating a collection is the request [POST /_db/{db}/_api/collection]
    whose body has the two fields [name] and [type]; the type code is [3] for
    the type [edge] and [2] for every other type.  The command without
    [--type] calls the operation with the default [document], whose code
    is [2]. *)
Theorem create_collection_type_code (self : client.DarangoClient)
    (db name collection_type : string) (w : world) :
  let code := if decide (collection_type = "edge") then 3 else 2 in
  let body : gmap string Any :=
    <["type" := JInt code]> {[ "name" := JStr name ]} in
  client.create_collection self db name collection_type w =
    client._request self "POST" ("/_db/" ++ db ++ "/_api/collection")
      (JDict body) JNull w /\
  sent (client.create_collection self db name collection_type w).2 =
    (sent w ++ [wire_call self "POST" ("/_db/" ++ db ++ "/_api/collection")
                 (JDict body) JNull])%list /\
  body !! "name" = Some (JStr name) /\
  body !! "type" = Some (JInt code) /\
  dom body = {[ "name"; "type" ]} /\
  (forall option_db,
     cli.app (cli.Create name option_db None) w =
     conclude
       (create_collection_op (py.or_ option_db config.get_default_db)
          name "document") w) /\
  client.create_collection self db name "document" w =
    client._request self "POST" ("/_db/" ++ db ++ "/_api/collection")
      (JDict (<["type" := JInt 2]> {[ "name" := JStr name ]})) JNull w.
Proof.
  intros code body.
  assert (Hcode : (if String.eqb collection_type "edge" then 3 else 2) = code).
  { subst code. destruct (String.eqb_spec collection_type "edge");
      now destruct (decide (collection_type = "edge")). }
  unfold client.create_collection at 1 2. rewrite Hcode. fold body.
  split; [reflexivity|]. split; [apply _request_sent|].
  subst body. split; [now rewrite lookup_insert_ne, lookup_singleton_eq|].
  split; [apply lookup_insert_eq|].
  split; [rewrite dom_insert_L, dom_singleton_L; set_solver|].
  split; reflexivity.
Qed.

(** C5, amended: every endpoint operation is exactly one call of [_request]
    with the method, the path and the body that the operation table gives
    for it -- the table read with bind variables absent when they are false
    in Python's sense, so also for the empty dictionary -- and without query
    parameters; the table gives no other request for the operation.  Being
    that call, the operation returns what [_request] returns and raises what
    [_request] raises, in the same world. *)
Theorem operations_follow_table (self : client.DarangoClient)
    (op : operation) :
  exists method path body,
    falsy_table op method path body /\
    (forall method' path' body',
       falsy_table op method' path' body' ->
       method' = method /\ path' = path /\ body' = body) /\
    (forall w, perform self op w =
               client._request self method path body JNull w) /\
    (forall w, sent (perform self op w).2 =
               (sent w ++ [wire_call self method path body JNull])%list).
Proof.
  destruct (perform_request self op) as (method & path & body & Hrow & Heq).
  exists method, path, body. split; [exact Hrow|]. split.
  - intros method' path' body'.
    apply (operation_table_functional _ _ _ _ _ _ _ _ Hrow).
  - split; intros w; rewrite Heq; [reflexivity|apply _request_sent].
Qed.

End endpoint_operations.

(** C5 as stated fails for a query called with the empty dictionary of bind
    variables: they are not absent, so the table gives the body with the
    field [bindVars]; the client sends the body with the single field
    [query]. *)
Lemma empty_bind_vars_left_out :
  sent (@client.query sample.bare (@cli.get_client sample.bare)
          "_system" "RETURN 1" (JDict ∅) sample.nothing_yet).2 =
    [wire_call (@cli.get_client sample.bare) "POST"
       "/_db/_system/_api/cursor"
       (JDict {[ "query" := JStr "RETURN 1" ]}) JNull] /\
  stated_table (query_op "_system" "RETURN 1" (JDict ∅))
    "POST" "/_db/_system/_api/cursor"
    (JDict (<["bindVars" := JDict ∅]> {[ "query" := JStr "RETURN 1" ]})) /\
  ~ (exists method path body,
       stated_table (query_op "_system" "RETURN 1" (JDict ∅))
         method path body /\
       sent (@perform sample.bare (@cli.get_client sample.bare)
               (query_op "_system" "RETURN 1" (JDict ∅))
               sample.nothing_yet).2 =
       [wire_call (@cli.get_client sample.bare) method path body JNull]).
Proof.
  assert (Hrow : stated_table (query_op "_system" "RETURN 1" (JDict ∅))
            "POST" "/_db/_system/_api/cursor"
            (JDict (<["bindVars" := JDict ∅]>
                    {[ "query" := JStr "RETURN 1" ]})))
    by (now apply (row_query_bindVars is_None "_system" "RETURN 1")).
  assert (Hsent :
    sent (@client.query sample.bare (@cli.get_client sample.bare)
            "_system" "RETURN 1" (JDict ∅) sample.nothing_yet).2 =
    [wire_call (@cli.get_client sample.bare) "POST"
       "/_db/_system/_api/cursor"
       (JDict {[ "query" := JStr "RETURN 1" ]}) JNull]).
  { rewrite query_request, _request_sent, truthy_empty_dict. reflexivity. }
  split; [exact Hsent|]. split; [exact Hrow|].
  intros (method & path & body & Hrow' & Hsent').
  destruct (operation_table_functional _ _ _ _ _ _ _ _ Hrow Hrow')
    as (-> & -> & ->).
  simpl perform in Hsent'. rewrite Hsent in Hsent'.
  apply (f_equal (fun calls : list http_call =>
                    match calls with
                    | [call] =>
                        match call_json call with
                        | JDict d => d !! "bindVars"
                        | _ => None
                        end
                    | _ => None
                    end)) in Hsent'.
  cbn [wire_call call_json] in Hsent'.
  rewrite lookup_insert_eq in Hsent'.
  now rewrite lookup_singleton_ne in Hsent'.
Qed.

(** ** The command layer *)

Section command_layer.
Context `{platform}.

(** [db or get_default_db()] is the precedence with the empty-string case. *)
Lemma or_get_default_db (db : option string) :
  py.or_ db config.get_default_db = resolved_database db.
Proof.
  assert (Hdefault : config.get_default_db = environment_default).
  { unfold config.get_default_db, py.environ_get, environment_default.
    now destruct (environ !! "ARANGO_DB"). }
  unfold py.or_, resolved_database. rewrite Hdefault.
  destruct db as [given|]; [|reflexivity].
  destruct (String.eqb_spec given ""), (decide (given = "")); congruence.
Qed.

(** A command is its two halves in sequence, for the resolved database. *)
Lemma app_prepare_conclude (c : cli.command) (w : world) :
  cli.app c w =
  (prepare (py.or_ (command_db c) config.get_default_db) c ≫= conclude) w.
Proof.
  destruct c as [name db type_|aql db bind_|db col key|db col doc
                |db col key doc|db col key]; simpl;
    try reflexivity.
  - unfold cli.query, mbind, M_bind, bind.
    destruct bind_ as [text|]; [|reflexivity].
    simpl. destruct (String.eqb text ""); simpl; [reflexivity|].
    destruct (try_except _ _ w) as [[v|e] w']; reflexivity.
  - unfold cli.insert, mbind, M_bind, bind.
    destruct (try_except _ _ w) as [[v|e] w']; reflexivity.
  - unfold cli.update, mbind, M_bind, bind.
    destruct (try_except _ _ w) as [[v|e] w']; reflexivity.
Qed.

(** Decoding an argument: the value, or the error line and [Exit(1)]. *)
Lemma decode_cases (label text : string) (w : world) :
  try_except (loads (json_loads text)) (cli.except_JSONDecodeError label) w =
  match json_loads text with
  | Loaded v => (Returned v, w)
  | Malformed str_e =>
      (Raised (Exit 1),
       after_output w (rprint ("[red]Error:[/red] " ++ label ++ str_e)))
  end.
Proof.
  unfold try_except, loads. destruct (json_loads text); reflexivity.
Qed.

(** The first half either chooses an operation on the database it was given
    and leaves the world alone, or stops on a malformed argument with one
    error line and [Exit(1)]. *)
Lemma prepare_cases (db : string) (c : cli.command) (w : world) :
  (exists op, prepare db c w = (Returned op, w) /\ operation_db op = db) \/
  (exists text str_e,
     json_argument c = Some text /\
     json_loads text = Malformed str_e /\
     prepare db c w =
     (Raised (Exit 1),
      after_output w
        (rprint ("[red]Error:[/red] " ++ argument_label c ++ str_e)))).
Proof.
  destruct c as [name d type_|aql d bind_|d col key|d col doc
                |d col key doc|d col key]; simpl;
    try (left; eexists; split; reflexivity).
  - unfold mbind, M_bind, bind.
    destruct bind_ as [text|]; [|left; eexists; split; reflexivity].
    destruct (String.eqb text ""); simpl;
      [left; eexists; split; reflexivity|].
    rewrite decode_cases.
    destruct (json_loads text) as [v|str_e] eqn:Hloads.
    + left. eexists. split; reflexivity.
    + right. exists text, str_e. auto.
  - unfold mbind, M_bind, bind. rewrite decode_cases.
    destruct (json_loads doc) as [v|str_e] eqn:Hloads.
    + left. eexists. split; reflexivity.
    + right. exists doc, str_e. auto.
  - unfold mbind, M_bind, bind. rewrite decode_cases.
    destruct (json_loads doc) as [v|str_e] eqn:Hloads.
    + left. eexists. split; reflexivity.
    + right. exists doc, str_e. auto.
Qed.


(** The second half, read off the result of the operation. *)
Lemma conclude_cases (op : operation) (w : world) :
  conclude op w =
  match perform cli.get_client op w with
  | (Returned result, w') =>
      (Returned tt, after_output w' (console_print_JSON result))
  | (Raised (DarangoError message _), w') =>
      (Raised (Exit 1),
       after_output w' (rprint ("[red]Error:[/red] " ++ py.str message)))
  | (Raised e, w') => (Raised e, w')
  end.
Proof.
  unfold conclude, try_except, mbind, M_bind, bind.
  destruct (perform cli.get_client op w) as [[result|e] w']; [reflexivity|].
  destruct e; reflexivity.
Qed.


(** An operation puts one call on the wire, below the path of its
    database. *)
Lemma perform_sent (self : client.DarangoClient) (op : operation) (w : world) :
  exists method rest body,
    sent (perform self op w).2 =
    (sent w ++ [wire_call self method
                  ("/_db/" ++ operation_db op ++ "/_api/" ++ rest)
                  body JNull])%list.
Proof.
  destruct op as [db name ct|db aql bv|db col key|db col doc|db col key doc
                 |db col key]; simpl.
  - exists "POST", "collection". eexists. apply _request_sent.
  - exists "POST", "cursor". eexists. apply _request_sent.
  - exists "GET", ("document/" ++ col ++ "/" ++ key). eexists.
    apply _request_sent.
  - exists "POST", ("document/" ++ col). eexists. apply _request_sent.
  - exists "PATCH", ("document/" ++ col ++ "/" ++ key). eexists.
    apply _request_sent.
  - exists "DELETE", ("document/" ++ col ++ "/" ++ key). eexists.
    apply _request_sent.
Qed.

(** What a command puts on the wire: nothing when it stops on a malformed
    argument, else the one call of its operation, below the path of the
    database it was prepared for. *)
Lemma command_sent (db : string) (c : cli.command) (w : world) :
  sent ((prepare db c ≫= conclude) w).2 = sent w \/
  exists method rest body,
    sent ((prepare db c ≫= conclude) w).2 =
    (sent w ++ [wire_call cli.get_client method
                  ("/_db/" ++ db ++ "/_api/" ++ rest) body JNull])%list.
Proof.
  unfold mbind, M_bind, bind.
  destruct (prepare_cases db c w)
    as [(op & -> & <-)|(text & str_e & _ & _ & ->)]; [right|left; reflexivity].
  destruct (perform_sent cli.get_client op w) as (method & rest & body & Hsent).
  exists method, rest, body. rewrite <- Hsent, conclude_cases.
  destruct (perform cli.get_client op w) as [[result|e] w']; [reflexivity|].
  destruct e; reflexivity.
Qed.


(** C7, amended: every command works on the database named by [--db] when
    that argument is given and is not the empty string, else on the
    environment's default, else on ["_system"]: the operation the command
    calls receives that name, and the one call on the wire is below
    [/_db/{name}/_api/]. *)
Theorem database_resolution (c : cli.command) (w : world) :
  let db := resolved_database (command_db c) in
  cli.app c w = (prepare db c ≫= conclude) w /\
  (forall w1 op w2, prepare db c w1 = (Returned op, w2) ->
                    operation_db op = db) /\
  (sent (cli.app c w).2 = sent w \/
   exists method rest body,
     sent (cli.app c w).2 =
     (sent w ++ [wire_call cli.get_client method
                   ("/_db/" ++ db ++ "/_api/" ++ rest) body JNull])%list).
Proof.
  intros db.
  assert (Happ : cli.app c w = (prepare db c ≫= conclude) w).
  { rewrite app_prepare_conclude. unfold db. now rewrite or_get_default_db. }
  split; [exact Happ|]. split.
  - intros w1 op w2 Hop.
    destruct (prepare_cases db c w1)
      as [(op' & Hop' & Hdb)|(text & str_e & _ & _ & Hstop)]; congruence.
  - rewrite Happ. apply command_sent.
Qed.

(** C10, amended: [--db] with the empty string is the same run as no [--db]
    at all: the command works on the environment's default, else on
    ["_system"], and the call on the wire is below the path of that name --
    which is the empty string exactly when the environment sets the default
    to the empty string. *)
Theorem empty_db_is_omitted (c : cli.command) (w : world) :
  cli.app (with_db (Some "") c) w = cli.app (with_db None c) w /\
  cli.app (with_db (Some "") c) w =
    (prepare environment_default c ≫= conclude) w /\
  (sent (cli.app (with_db (Some "") c) w).2 = sent w \/
   exists method rest body,
     sent (cli.app (with_db (Some "") c) w).2 =
     (sent w ++ [wire_call cli.get_client method
                   ("/_db/" ++ environment_default ++ "/_api/" ++ rest)
                   body JNull])%list) /\
  (environment_default = "" <-> environ !! "ARANGO_DB" = Some "").
Proof.
  assert (Hdb : forall o, command_db (with_db o c) = o) by (now destruct c).
  assert (Hprepare : forall o db, prepare db (with_db o c) = prepare db c)
    by (now destruct c).
  assert (Happ : cli.app (with_db (Some "") c) w =
                 (prepare environment_default c ≫= conclude) w).
  { now rewrite app_prepare_conclude, Hdb, or_get_default_db, Hprepare. }
  split; [|split; [exact Happ|split]].
  - rewrite Happ, app_prepare_conclude, Hdb, or_get_default_db, Hprepare.
    reflexivity.
  - rewrite Happ. apply command_sent.
  - unfold environment_default.
    destruct (environ !! "ARANGO_DB"); split; congruence.
Qed.


End command_layer.

(** ** The command layer on the sample platform *)



(** C7 as stated fails for [--db] given as the empty string: the stated
    precedence picks the empty name, the command picks the environment's
    default. *)
Lemma empty_db_is_not_used :
  @stated_database sample.mydb_default
    (command_db (cli.Get (Some "") "test" "doc1")) = "" /\
  map call_url
    (sent (@cli.app sample.mydb_default (cli.Get (Some "") "test" "doc1")
             sample.nothing_yet).2) =
  ["http://localhost:8080/_db/mydb/_api/document/test/doc1"].
Proof. vm_compute. auto. Qed.

(** C10 as stated fails when the environment sets [ARANGO_DB] to the empty
    string: with [--db] empty the command falls back on that default, and
    the database name in the request path is the empty string. *)
Lemma empty_default_is_used :
  @environ sample.empty_default !! "ARANGO_DB" = Some "" /\
  map call_url
    (sent (@cli.app sample.empty_default (cli.Get (Some "") "test" "doc1")
             sample.nothing_yet).2) =
  ["http://localhost:8080" ++ "/_db/" ++ "" ++ "/_api/document/test/doc1"].
Proof. vm_compute. auto. Qed.

(** The scenarios of the test suite, against the sample server. *)
Example get_missing_document :
  @cli.app sample.bare (cli.Get (Some "_system") "test" "missing")
    sample.nothing_yet =
  (Raised (Exit 1),
   {| sent :=
        [{| call_method := "GET";
            call_url :=
              "http://localhost:8080/_db/_system/_api/document/test/missing";
            call_json := JNull;
            call_params := JNull;
            call_timeout := client.default_timeout |}];
      console := [rprint "[red]Error:[/red] document not found"] |}).
Proof. vm_compute. reflexivity. Qed.

Example create_uses_default_database :
  map call_url
    (sent (@cli.app sample.mydb_default (cli.Create "test" None None)
             sample.nothing_yet).2) =
  ["http://localhost:8080/_db/mydb/_api/collection"] /\
  map call_json
    (sent (@cli.app sample.mydb_default (cli.Create "test" None None)
             sample.nothing_yet).2) =
  [JDict (<["type" := JInt 2]> {[ "name" := JStr "test" ]})].
Proof. vm_compute. auto. Qed.

(** [json.loads] accepts [NaN]; insert sends it on. *)
Example insert_NaN_is_sent :
  @cli.app sample.bare (cli.Insert None "test" "NaN") sample.nothing_yet =
  (Returned tt,
   {| sent := [wire_call (@cli.get_client sample.bare) "POST"
                 "/_db/_system/_api/document/test" (JFloat S754_nan) JNull];
      console := [console_print_JSON (JDict {[ "_key" := JStr "doc1" ]})] |}).
Proof. vm_compute. reflexivity. Qed.

Example rstrip_slash_trailing :
  py.rstrip_slash "http://custom:9090//" = "http://custom:9090".
Proof. reflexivity. Qed.

(** ** More about the client: its base URL and what [_request] lets out *)

(** [rstrip("/")] leaves nothing that ends in a slash. *)
Lemma rstrip_slash_no_trailing (s t : string) :
  py.rstrip_slash s <> t ++ "/".
Proof.
  revert t. induction s as [|c s IH]; intros t; simpl.
  - destruct t; discriminate.
  - destruct (py.rstrip_slash s) as [|c' r] eqn:Hr.
    + destruct (Ascii.eqb_spec c "/"%char) as [->|Hc].
      * destruct t; discriminate.
      * destruct t as [|a t]; simpl; [intros [= Hslash]; congruence|].
        intros [= _ Ht]. destruct t; discriminate.
    + destruct t as [|a t]; simpl; [discriminate|].
      intros [= _ Ht]. exact (IH t Ht).
Qed.

(** [rstrip("/")] takes away slashes and nothing else. *)
Lemma rstrip_slash_tail (s : string) :
  exists tail,
    s = py.rstrip_slash s ++ tail /\
    Forall (fun c => c = "/"%char) (String.list_ascii_of_string tail).
Proof.
  induction s as [|c s (tail & Hs & Htail)]; simpl.
  - exists "". split; [reflexivity|constructor].
  - destruct (py.rstrip_slash s) as [|c' r] eqn:Hr.
    + change (s = tail) in Hs. subst s.
      destruct (Ascii.eqb_spec c "/"%char) as [->|Hc].
      * exists (String "/" tail). split; [reflexivity|]. now constructor.
      * exists tail. split; [reflexivity|assumption].
    + exists tail. split; [|assumption].
      change (String c s = String c (String c' r ++ tail)). now f_equal.
Qed.

Section client_construction.
Context `{platform}.

(** X1: whatever URL a client is built from -- the argument, or [DARANGO_API],
    or the built-in default -- its base URL never ends in a slash, and it is
    the configured URL with only trailing slashes taken away; the timeout is
    kept as given. *)
Theorem client_base_url_stripped (base_url : option string)
    (timeout : spec_float) :
  let self := client.__init__ base_url timeout in
  (forall t, client.base_url self <> t ++ "/") /\
  (exists tail,
     py.or_ base_url config.get_darango_api = client.base_url self ++ tail /\
     Forall (fun c => c = "/"%char) (String.list_ascii_of_string tail)) /\
  client.timeout self = timeout.
Proof.
  intros self. split; [|split; [|reflexivity]].
  - intros t. apply rstrip_slash_no_trailing.
  - apply rstrip_slash_tail.
Qed.

(** X2: no [HTTPStatusError] and no [RequestError] leaves [_request]: each
    is turned into a [DarangoError].  A [DarangoError] that leaves [_request]
    tells which: without a status code it stands for a transport error and
    its message is [Request failed: ] followed by the text of that error;
    with a status code it stands for a reply on which [raise_for_status]
    raised, the code is the one of the reply and the message the one of the
    priority rule. *)
Theorem request_error_origin (self : client.DarangoClient)
    (method path : string) (json params : Any) (w w' : world) (e : exn) :
  client._request self method path json params w = (Raised e, w') ->
  (forall str_e resp, e <> HTTPStatusError str_e resp) /\
  (forall str_e, e <> RequestError str_e) /\
  (forall message status,
     e = DarangoError message status ->
     (exists str_e,
        network (sent w) (wire_call self method path json params) =
          Failed str_e /\
        status = None /\
        message = JStr ("Request failed: " ++ str_e)) \/
     (exists resp str_e,
        network (sent w) (wire_call self method path json params) =
          Responded resp /\
        raise_for_status resp = Some str_e /\
        status = Some (status_code resp) /\
        message = priority_message str_e resp)).
Proof.
  rewrite _request_cases. cbv zeta.
  destruct (network _ _) as [resp|str_e].
  - destruct (raise_for_status resp) as [str_e|] eqn:Hstatus.
    + intros [= <- _]. split; [discriminate|]. split; [discriminate|].
      intros message status [= <- <-]. right.
      exists resp, str_e. auto.
    + destruct (response_json resp); [discriminate|].
      intros [= <- _]. split; [discriminate|]. split; discriminate.
  - intros [= <- _]. split; [discriminate|]. split; [discriminate|].
    intros message status [= <- <-]. left.
    exists str_e. auto.
Qed.

(** X3: when the server answers and [raise_for_status] finds nothing to
    raise, [_request] returns the decoded body as it is; a body that does not
    decode leaves [_request] as a [JSONDecodeError], not as a
    [DarangoError]. *)
Theorem request_success (self : client.DarangoClient)
    (method path : string) (json params : Any) (w : world) (resp : response) :
  network (sent w) (wire_call self method path json params) = Responded resp ->
  raise_for_status resp = None ->
  client._request self method path json params w =
  (match response_json resp with
   | Loaded v => Returned v
   | Malformed str_e => Raised (JSONDecodeError str_e)
   end,
   {| sent := sent w ++ [wire_call self method path json params];
      console := console w |}).
Proof.
  intros Hreply Hstatus. rewrite _request_cases. cbv zeta.
  now rewrite Hreply, Hstatus.
Qed.

(** X4: the body of a query always has the field [query] with the query
    text; it has the field [bindVars] exactly when the bind variables are
    true in Python's sense, and then with the bind variables as they are;
    it has no other field. *)
Theorem query_body (self : client.DarangoClient) (db aql : string)
    (bind_vars : Any) (w : world) :
  exists body : gmap string Any,
    sent (client.query self db aql bind_vars w).2 =
      (sent w ++ [wire_call self "POST" ("/_db/" ++ db ++ "/_api/cursor")
                    (JDict body) JNull])%list /\
    body !! "query" = Some (JStr aql) /\
    body !! "bindVars" = (if py.truthy bind_vars then Some bind_vars else None) /\
    (forall k, k <> "query" -> k <> "bindVars" -> body !! k = None).
Proof.
  rewrite query_request. eexists. split; [apply _request_sent|].
  destruct (py.truthy bind_vars).
  - split; [now rewrite lookup_insert_ne, lookup_singleton_eq|].
    split; [apply lookup_insert_eq|].
    intros k Hq Hb. now rewrite lookup_insert_ne, lookup_singleton_ne.
  - split; [apply lookup_singleton_eq|].
    split; [now apply lookup_singleton_ne|].
    intros k Hq Hb. now apply lookup_singleton_ne.
Qed.

End client_construction.

Lemma request_error_origin_witness :
  (forall str_e resp,
     DarangoError (JStr "document not found") (Some 404) <>
     HTTPStatusError str_e resp) /\
  (forall str_e,
     DarangoError (JStr "document not found") (Some 404) <>
     RequestError str_e) /\
  (forall message status,
     DarangoError (JStr "document not found") (Some 404) =
     DarangoError message status ->
     (exists str_e,
        @network sample.bare (sent sample.nothing_yet)
          (wire_call (@cli.get_client sample.bare)
             "GET" "/_db/_system/_api/document/test/missing" JNull JNull) =
          Failed str_e /\
        status = None /\
        message = JStr ("Request failed: " ++ str_e)) \/
     (exists resp str_e,
        @network sample.bare (sent sample.nothing_yet)
          (wire_call (@cli.get_client sample.bare)
             "GET" "/_db/_system/_api/document/test/missing" JNull JNull) =
          Responded resp /\
        @raise_for_status sample.bare resp = Some str_e /\
        status = Some (status_code resp) /\
        message = @priority_message sample.bare str_e resp)).
Proof.
  apply (@request_error_origin sample.bare (@cli.get_client sample.bare)
           "GET" "/_db/_system/_api/document/test/missing" JNull JNull
           sample.nothing_yet
           (after_call sample.nothing_yet
              (wire_call (@cli.get_client sample.bare)
                 "GET" "/_db/_system/_api/document/test/missing"
                 JNull JNull))).
  vm_compute. reflexivity.
Defined.

Lemma request_success_witness :
  @client._request sample.garbled (@cli.get_client sample.garbled)
    "GET" "/_db/_system/_api/document/test/doc1" JNull JNull
    sample.nothing_yet =
  (Raised (JSONDecodeError "Expecting value: line 1 column 1 (char 0)"),
   {| sent := [wire_call (@cli.get_client sample.garbled)
                 "GET" "/_db/_system/_api/document/test/doc1" JNull JNull];
      console := [] |}).
Proof.
  apply (@request_success sample.garbled (@cli.get_client sample.garbled)
           "GET" "/_db/_system/_api/document/test/doc1" JNull JNull
           sample.nothing_yet
           {| status_code := 200; reason_phrase := "OK";
              response_url :=
                "http://localhost:8080/_db/_system/_api/document/test/doc1";
              content := "<html>" |}).
  - vm_compute. reflexivity.
  - vm_compute. reflexivity.
Defined.

Example client_base_url_custom :
  client.base_url (@cli.get_client sample.custom_api) = "http://custom:9090".
Proof. vm_compute. reflexivity. Qed.

(** ** A command from end to end *)

Section end_to_end.
Context `{platform}.

(** Every operation is one call of [_request] with one of four methods and
    a path below the database of the operation. *)
Lemma perform_call (self : client.DarangoClient) (op : operation) :
  exists method rest body,
    In method ["GET"; "POST"; "PATCH"; "DELETE"] /\
    perform self op =
    client._request self method
      ("/_db/" ++ operation_db op ++ "/_api/" ++ rest) body JNull.
Proof.
  destruct op as [db name ct|db aql bv|db col key|db col doc|db col key doc
                 |db col key]; simpl.
  - exists "POST", "collection". eexists. split; [simpl; tauto|reflexivity].
  - exists "POST", "cursor". eexists. split; [simpl; tauto|reflexivity].
  - exists "GET", ("document/" ++ col ++ "/" ++ key). eexists.
    split; [simpl; tauto|reflexivity].
  - exists "POST", ("document/" ++ col). eexists.
    split; [simpl; tauto|reflexivity].
  - exists "PATCH", ("document/" ++ col ++ "/" ++ key). eexists.
    split; [simpl; tauto|reflexivity].
  - exists "DELETE", ("document/" ++ col ++ "/" ++ key). eexists.
    split; [simpl; tauto|reflexivity].
Qed.

(** The second half of a command, read off the reply of the network. *)
Lemma conclude_reply (op : operation) (w : world) :
  exists method rest body,
    In method ["GET"; "POST"; "PATCH"; "DELETE"] /\
    let call := wire_call cli.get_client method
                  ("/_db/" ++ operation_db op ++ "/_api/" ++ rest)
                  body JNull in
    conclude op w =
    match network (sent w) call with
    | Failed str_e =>
        (Raised (Exit 1),
         after_output (after_call w call)
           (rprint ("[red]Error:[/red] " ++ "Request failed: " ++ str_e)))
    | Responded resp =>
        match raise_for_status resp with
        | Some str_e =>
            (Raised (Exit 1),
             after_output (after_call w call)
               (rprint ("[red]Error:[/red] " ++
                        py.str (priority_message str_e resp))))
        | None =>
            match response_json resp with
            | Loaded v =>
                (Returned tt,
                 after_output (after_call w call) (console_print_JSON v))
            | Malformed str_e =>
                (Raised (JSONDecodeError str_e), after_call w call)
            end
        end
    end.
Proof.
  destruct (perform_call cli.get_client op)
    as (method & rest & body & Hmethod & Hperform).
  exists method, rest, body. split; [exact Hmethod|]. intros call.
  rewrite conclude_cases, Hperform, _request_cases. cbv zeta. fold call.
  destruct (network (sent w) call) as [resp|str_e]; [|reflexivity].
  destruct (raise_for_status resp); [reflexivity|].
  destruct (response_json resp); reflexivity.
Qed.

(** A whole command: it stops on a malformed argument, or it puts one call
    on the wire and the reply decides the rest. *)
Lemma app_reply (c : cli.command) (w : world) :
  (exists text str_e,
     json_argument c = Some text /\
     json_loads text = Malformed str_e /\
     cli.app c w =
     (Raised (Exit 1),
      after_output w
        (rprint ("[red]Error:[/red] " ++ argument_label c ++ str_e)))) \/
  (exists method rest body,
     In method ["GET"; "POST"; "PATCH"; "DELETE"] /\
     let call := wire_call cli.get_client method
                   ("/_db/" ++ resolved_database (command_db c) ++ "/_api/"
                    ++ rest)
                   body JNull in
     cli.app c w =
     match network (sent w) call with
     | Failed str_e =>
         (Raised (Exit 1),
          after_output (after_call w call)
            (rprint ("[red]Error:[/red] " ++ "Request failed: " ++ str_e)))
     | Responded resp =>
         match raise_for_status resp with
         | Some str_e =>
             (Raised (Exit 1),
              after_output (after_call w call)
                (rprint ("[red]Error:[/red] " ++
                         py.str (priority_message str_e resp))))
         | None =>
             match response_json resp with
             | Loaded v =>
                 (Returned tt,
                  after_output (after_call w call) (console_print_JSON v))
             | Malformed str_e =>
                 (Raised (JSONDecodeError str_e), after_call w call)
             end
         end
     end).
Proof.
  rewrite app_prepare_conclude, or_get_default_db.
  unfold mbind, M_bind, bind.
  destruct (prepare_cases (resolved_database (command_db c)) c w)
    as [(op & -> & <-)|(text & str_e & Harg & Hloads & ->)].
  - right. apply conclude_reply.
  - left. exists text, str_e. auto.
Qed.

End end_to_end.

Section command_properties.
Context `{platform}.

(** Printing does not touch the wire. *)
Lemma conclude_sent (op : operation) (w : world) :
  sent (conclude op w).2 = sent (perform cli.get_client op w).2.
Proof.
  rewrite conclude_cases.
  destruct (perform cli.get_client op w) as [[result|e] w']; [reflexivity|].
  destruct e; reflexivity.
Qed.

(** If a command put [call] on the wire, the reply to [call] decides how the
    command ends. *)
Lemma app_sent_call (c : cli.command) (w : world) (call : http_call) :
  sent (cli.app c w).2 = (sent w ++ [call])%list ->
  cli.app c w =
  match network (sent w) call with
  | Failed str_e =>
      (Raised (Exit 1),
       after_output (after_call w call)
         (rprint ("[red]Error:[/red] " ++ "Request failed: " ++ str_e)))
  | Responded resp =>
      match raise_for_status resp with
      | Some str_e =>
          (Raised (Exit 1),
           after_output (after_call w call)
             (rprint ("[red]Error:[/red] " ++
                      py.str (priority_message str_e resp))))
      | None =>
          match response_json resp with
          | Loaded v =>
              (Returned tt,
               after_output (after_call w call) (console_print_JSON v))
          | Malformed str_e =>
              (Raised (JSONDecodeError str_e), after_call w call)
          end
      end
  end.
Proof.
  intros Hsent.
  destruct (app_reply c w)
    as [(text & str_e & _ & _ & Happ)
       |(method & rest & body & _ & Happ)].
  - rewrite Happ in Hsent. simpl in Hsent.
    apply (f_equal length) in Hsent. rewrite length_app in Hsent.
    simpl in Hsent. lia.
  - cbv zeta in Happ.
    set (call' := wire_call cli.get_client method
                    ("/_db/" ++ resolved_database (command_db c) ++ "/_api/"
                     ++ rest) body JNull) in *.
    assert (Hcall : sent (cli.app c w).2 = (sent w ++ [call'])%list).
    { rewrite Happ. destruct (network (sent w) call') as [resp|str_e];
        [|reflexivity].
      destruct (raise_for_status resp); [reflexivity|].
      destruct (response_json resp); reflexivity. }
    rewrite Hsent in Hcall. apply app_inj_tail in Hcall as [_ ->].
    exact Happ.
Qed.

(** X5: a command puts at most one call on the wire and leaves the calls
    before it alone.  It puts none only when it stopped on an argument that
    does not decode.  The call has one of the methods [GET], [POST], [PATCH]
    and [DELETE], a URL that starts with the value of [DARANGO_API] (or the
    built-in default) without trailing slashes, no query parameters, and the
    timeout [30.0]. *)
Theorem command_wire (c : cli.command) (w : world) :
  (sent (cli.app c w).2 = sent w /\
   exists text str_e,
     json_argument c = Some text /\ json_loads text = Malformed str_e) \/
  (exists method path body,
     In method ["GET"; "POST"; "PATCH"; "DELETE"] /\
     sent (cli.app c w).2 =
     (sent w ++
      [{| call_method := method;
          call_url := py.rstrip_slash config.get_darango_api ++ path;
          call_json := body;
          call_params := JNull;
          call_timeout := client.default_timeout |}])%list).
Proof.
  destruct (app_reply c w)
    as [(text & str_e & Harg & Hloads & Happ)
       |(method & rest & body & Hmethod & Happ)].
  - left. rewrite Happ. split; [reflexivity|]. eauto.
  - right. cbv zeta in Happ. do 3 eexists. split; [exact Hmethod|].
    rewrite Happ. destruct (network _ _) as [resp|str_e]; [|reflexivity].
    destruct (raise_for_status resp); [reflexivity|].
    destruct (response_json resp); reflexivity.
Qed.

(** X6: what a command has printed when it ends.  If it returns, it has
    printed one JSON value and nothing else.  If it ends with a
    [typer.Exit], the code is [1] and it has printed one line, which starts
    with [[red]Error:[/red] ], and nothing else.  If another exception leaves
    it, it has printed nothing.  So a command never prints two lines, and
    never a JSON value before it fails. *)
Theorem command_console (c : cli.command) (w : world) :
  match (cli.app c w).1 with
  | Returned _ =>
      exists v,
        console (cli.app c w).2 = (console w ++ [console_print_JSON v])%list
  | Raised (Exit code) =>
      code = 1 /\
      exists message,
        console (cli.app c w).2 =
        (console w ++ [rprint ("[red]Error:[/red] " ++ message)])%list
  | Raised _ => console (cli.app c w).2 = console w
  end.
Proof.
  destruct (app_reply c w)
    as [(text & str_e & _ & _ & Happ)
       |(method & rest & body & _ & Happ)].
  - rewrite Happ. simpl. split; [reflexivity|]. eexists. reflexivity.
  - cbv zeta in Happ. rewrite Happ.
    destruct (network _ _) as [resp|str_e].
    + destruct (raise_for_status resp) as [str_e|].
      * simpl. split; [reflexivity|]. eexists. reflexivity.
      * destruct (response_json resp) as [v|str_e]; simpl.
        -- exists v. reflexivity.
        -- reflexivity.
    + simpl. split; [reflexivity|]. eexists. reflexivity.
Qed.

(** X7: when the call a command put on the wire ends in a transport error,
    the command prints [Error: Request failed: ] followed by the text of the
    transport error, and ends with [Exit(1)]. *)
Theorem command_transport_failure (c : cli.command) (w : world)
    (call : http_call) (str_e : string) :
  sent (cli.app c w).2 = (sent w ++ [call])%list ->
  network (sent w) call = Failed str_e ->
  cli.app c w =
  (Raised (Exit 1),
   {| sent := sent w ++ [call];
      console := console w ++
        [rprint ("[red]Error:[/red] Request failed: " ++ str_e)] |}).
Proof.
  intros Hsent Hreply. rewrite (app_sent_call c w call Hsent), Hreply.
  reflexivity.
Qed.

(** X8: when the reply to the call of a command is one on which
    [raise_for_status] raises, the command prints the message of the
    priority rule after [Error:] and ends with [Exit(1)]; a string under
    [errorMessage] is printed as it is. *)
Theorem command_error_status (c : cli.command) (w : world)
    (call : http_call) (resp : response) (str_e : string) :
  sent (cli.app c w).2 = (sent w ++ [call])%list ->
  network (sent w) call = Responded resp ->
  raise_for_status resp = Some str_e ->
  cli.app c w =
    (Raised (Exit 1),
     {| sent := sent w ++ [call];
        console := console w ++
          [rprint ("[red]Error:[/red] " ++
                   py.str (priority_message str_e resp))] |}) /\
  (forall d text,
     response_json resp = Loaded (JDict d) ->
     d !! "errorMessage" = Some (JStr text) ->
     py.str (priority_message str_e resp) = text).
Proof.
  intros Hsent Hreply Hstatus. split.
  - rewrite (app_sent_call c w call Hsent), Hreply, Hstatus. reflexivity.
  - intros d text Hjson Hfield. unfold priority_message.
    now rewrite Hjson, Hfield.
Qed.

(** X9: when the reply to the call of a command passes [raise_for_status]
    and its body decodes, the command prints the decoded body and returns:
    the status is [0]. *)
Theorem command_success (c : cli.command) (w : world)
    (call : http_call) (resp : response) (v : Any) :
  sent (cli.app c w).2 = (sent w ++ [call])%list ->
  network (sent w) call = Responded resp ->
  raise_for_status resp = None ->
  response_json resp = Loaded v ->
  cli.app c w =
    (Returned tt,
     {| sent := sent w ++ [call];
        console := console w ++ [console_print_JSON v] |}) /\
  cli.exit_status (cli.app c w).1 = 0.
Proof.
  intros Hsent Hreply Hstatus Hjson.
  rewrite (app_sent_call c w call Hsent), Hreply, Hstatus, Hjson.
  split; reflexivity.
Qed.

(** X10: when the reply to the call of a command passes [raise_for_status]
    but its body does not decode, no clause of the command catches the
    [JSONDecodeError]: the command prints nothing, not even an error line,
    and the process ends with status [1]. *)
Theorem command_undecodable_reply (c : cli.command) (w : world)
    (call : http_call) (resp : response) (str_e : string) :
  sent (cli.app c w).2 = (sent w ++ [call])%list ->
  network (sent w) call = Responded resp ->
  raise_for_status resp = None ->
  response_json resp = Malformed str_e ->
  cli.app c w =
    (Raised (JSONDecodeError str_e),
     {| sent := sent w ++ [call]; console := console w |}) /\
  cli.exit_status (cli.app c w).1 = 1.
Proof.
  intros Hsent Hreply Hstatus Hjson.
  rewrite (app_sent_call c w call Hsent), Hreply, Hstatus, Hjson.
  split; reflexivity.
Qed.

(** X11: a [--bind] text that decodes to a value false in Python's sense
    ([{}], [null], [0], [[]], ...) gives the same run as no [--bind]. *)
Theorem query_falsy_bind (aql : string) (db : option string) (text : string)
    (v : Any) (w : world) :
  json_loads text = Loaded v ->
  py.truthy v = false ->
  cli.app (cli.Query aql db (Some text)) w =
  cli.app (cli.Query aql db None) w.
Proof.
  intros Hloads Hfalse. simpl. unfold cli.query, mbind, M_bind, bind.
  destruct (py.truthy (JStr text)); [|reflexivity].
  rewrite decode_cases, Hloads. unfold ret.
  rewrite !query_request, Hfalse. reflexivity.
Qed.

(** X12: insert and update send the decoded [--doc] as the body of the
    request, whatever kind of JSON value it is, to the document path of the
    resolved database. *)
Theorem document_sent_verbatim (db : option string) (col key doc : string)
    (v : Any) (w : world) :
  json_loads doc = Loaded v ->
  sent (cli.app (cli.Insert db col doc) w).2 =
    (sent w ++
     [wire_call cli.get_client "POST"
        ("/_db/" ++ resolved_database db ++ "/_api/document/" ++ col)
        v JNull])%list /\
  sent (cli.app (cli.Update db col key doc) w).2 =
    (sent w ++
     [wire_call cli.get_client "PATCH"
        ("/_db/" ++ resolved_database db ++ "/_api/document/" ++ col
         ++ "/" ++ key)
        v JNull])%list.
Proof.
  intros Hloads.
  split; rewrite app_prepare_conclude, or_get_default_db; simpl;
    unfold mbind, M_bind, bind; rewrite decode_cases, Hloads;
    unfold ret; rewrite conclude_sent; simpl; apply _request_sent.
Qed.

(** X13: get, delete and create have nothing to decode and always put their
    one call on the wire: [GET] and [DELETE] on the document path without a
    body, [POST] on the collection path with the name and the type code. *)
Theorem plain_commands_send (db type_ : option string) (name col key : string)
    (w : world) :
  sent (cli.app (cli.Get db col key) w).2 =
    (sent w ++
     [wire_call cli.get_client "GET"
        ("/_db/" ++ resolved_database db ++ "/_api/document/" ++ col
         ++ "/" ++ key)
        JNull JNull])%list /\
  sent (cli.app (cli.Delete db col key) w).2 =
    (sent w ++
     [wire_call cli.get_client "DELETE"
        ("/_db/" ++ resolved_database db ++ "/_api/document/" ++ col
         ++ "/" ++ key)
        JNull JNull])%list /\
  sent (cli.app (cli.Create name db type_) w).2 =
    (sent w ++
     [wire_call cli.get_client "POST"
        ("/_db/" ++ resolved_database db ++ "/_api/collection")
        (JDict (<["type" := JInt (if decide (type_ = Some "edge")
                                  then 3 else 2)]>
                {[ "name" := JStr name ]}))
        JNull])%list.
Proof.
  repeat split; rewrite app_prepare_conclude, or_get_default_db; simpl;
    unfold mbind, M_bind, bind, ret; rewrite conclude_sent; simpl;
    try apply _request_sent.
  unfold client.create_collection.
  replace (if String.eqb (default "document" type_) "edge" then 3 else 2)
    with (if decide (type_ = Some "edge") then 3 else 2);
    [apply _request_sent|].
  destruct type_ as [t|]; simpl.
  - destruct (String.eqb_spec t "edge"), (decide (Some t = Some "edge"));
      congruence.
  - now destruct (decide (None = Some "edge")).
Qed.

(** X14: a [--bind] text that is not empty and decodes to a value true in
    Python's sense is sent under [bindVars] as decoded, whatever kind of JSON
    value it is, next to the query text. *)
Theorem query_bind_sent (aql : string) (db : option string) (text : string)
    (v : Any) (w : world) :
  text <> "" ->
  json_loads text = Loaded v ->
  py.truthy v = true ->
  sent (cli.app (cli.Query aql db (Some text)) w).2 =
  (sent w ++
   [wire_call cli.get_client "POST"
      ("/_db/" ++ resolved_database db ++ "/_api/cursor")
      (JDict (<["bindVars" := v]> {[ "query" := JStr aql ]}))
      JNull])%list.
Proof.
  intros Htext Hloads Htrue.
  rewrite app_prepare_conclude, or_get_default_db. simpl.
  unfold mbind, M_bind, bind.
  destruct (String.eqb_spec text "") as [->|_]; [now destruct Htext|].
  simpl. rewrite decode_cases, Hloads. unfold ret.
  rewrite conclude_sent. simpl. rewrite query_request, Htrue.
  apply _request_sent.
Qed.

End command_properties.

(** ** Whole runs on the sample platforms *)

Lemma command_transport_failure_witness :
  @cli.app sample.unreachable (cli.Get None "test" "doc1") sample.nothing_yet =
  (Raised (Exit 1),
   {| sent := [wire_call (@cli.get_client sample.unreachable) "GET"
                 "/_db/_system/_api/document/test/doc1" JNull JNull];
      console :=
        [rprint ("[red]Error:[/red] Request failed: " ++
                 "[Errno 111] Connection refused")] |}).
Proof.
  apply (@command_transport_failure sample.unreachable
           (cli.Get None "test" "doc1") sample.nothing_yet).
  - vm_compute. reflexivity.
  - vm_compute. reflexivity.
Defined.

Lemma command_error_status_witness :
  @cli.app sample.bare (cli.Get None "test" "missing") sample.nothing_yet =
    (Raised (Exit 1),
     {| sent := [wire_call (@cli.get_client sample.bare) "GET"
                   "/_db/_system/_api/document/test/missing" JNull JNull];
        console :=
          [rprint ("[red]Error:[/red] " ++
                   @py.str sample.bare
                     (@priority_message sample.bare
                        "Client error 'Not Found' for url 'http://localhost:8080/_db/_system/_api/document/test/missing'"
                        sample.not_found))] |}) /\
  (forall d text,
     @response_json sample.bare sample.not_found = Loaded (JDict d) ->
     d !! "errorMessage" = Some (JStr text) ->
     @py.str sample.bare
       (@priority_message sample.bare
          "Client error 'Not Found' for url 'http://localhost:8080/_db/_system/_api/document/test/missing'"
          sample.not_found) = text).
Proof.
  apply (@command_error_status sample.bare
           (cli.Get None "test" "missing") sample.nothing_yet).
  - vm_compute. reflexivity.
  - vm_compute. reflexivity.
  - vm_compute. reflexivity.
Defined.

Lemma command_success_witness :
  @cli.app sample.bare (cli.Delete None "test" "doc1") sample.nothing_yet =
    (Returned tt,
     {| sent := [wire_call (@cli.get_client sample.bare) "DELETE"
                   "/_db/_system/_api/document/test/doc1" JNull JNull];
        console := [console_print_JSON (JDict {[ "_key" := JStr "doc1" ]})] |}) /\
  cli.exit_status
    (@cli.app sample.bare (cli.Delete None "test" "doc1")
       sample.nothing_yet).1 = 0.
Proof.
  apply (@command_success sample.bare
           (cli.Delete None "test" "doc1") sample.nothing_yet
           (wire_call (@cli.get_client sample.bare) "DELETE"
              "/_db/_system/_api/document/test/doc1" JNull JNull)
           {| status_code := 200; reason_phrase := "OK";
              response_url :=
                "http://localhost:8080/_db/_system/_api/document/test/doc1";
              content := "ok" |}).
  - vm_compute. reflexivity.
  - vm_compute. reflexivity.
  - vm_compute. reflexivity.
  - vm_compute. reflexivity.
Defined.

Lemma command_undecodable_reply_witness :
  @cli.app sample.garbled (cli.Get None "test" "doc1") sample.nothing_yet =
    (Raised (JSONDecodeError "Expecting value: line 1 column 1 (char 0)"),
     {| sent := [wire_call (@cli.get_client sample.garbled) "GET"
                   "/_db/_system/_api/document/test/doc1" JNull JNull];
        console := [] |}) /\
  cli.exit_status
    (@cli.app sample.garbled (cli.Get None "test" "doc1")
       sample.nothing_yet).1 = 1.
Proof.
  apply (@command_undecodable_reply sample.garbled
           (cli.Get None "test" "doc1") sample.nothing_yet
           (wire_call (@cli.get_client sample.garbled) "GET"
              "/_db/_system/_api/document/test/doc1" JNull JNull)
           {| status_code := 200; reason_phrase := "OK";
              response_url :=
                "http://localhost:8080/_db/_system/_api/document/test/doc1";
              content := "<html>" |}).
  - vm_compute. reflexivity.
  - vm_compute. reflexivity.
  - vm_compute. reflexivity.
  - vm_compute. reflexivity.
Defined.

Lemma query_falsy_bind_witness :
  @cli.app sample.bare (cli.Query "RETURN 1" None (Some "{}"))
    sample.nothing_yet =
  @cli.app sample.bare (cli.Query "RETURN 1" None None) sample.nothing_yet.
Proof.
  apply (@query_falsy_bind sample.bare "RETURN 1" None "{}" (JDict ∅)).
  - vm_compute. reflexivity.
  - vm_compute. reflexivity.
Defined.

Lemma document_sent_verbatim_witness :
  sent (@cli.app sample.bare (cli.Insert None "test" "[1]")
          sample.nothing_yet).2 =
    [wire_call (@cli.get_client sample.bare) "POST"
       ("/_db/" ++ @resolved_database sample.bare None ++
        "/_api/document/" ++ "test")
       (JList [JInt 1]) JNull] /\
  sent (@cli.app sample.bare (cli.Update None "test" "k1" "[1]")
          sample.nothing_yet).2 =
    [wire_call (@cli.get_client sample.bare) "PATCH"
       ("/_db/" ++ @resolved_database sample.bare None ++
        "/_api/document/" ++ "test" ++ "/" ++ "k1")
       (JList [JInt 1]) JNull].
Proof.
  apply (@document_sent_verbatim sample.bare None "test" "k1" "[1]"
           (JList [JInt 1]) sample.nothing_yet).
  vm_compute. reflexivity.
Defined.

Lemma query_bind_sent_witness :
  sent (@cli.app sample.bare (cli.Query "RETURN @x" None (Some "[1]"))
          sample.nothing_yet).2 =
  [wire_call (@cli.get_client sample.bare) "POST"
     ("/_db/" ++ @resolved_database sample.bare None ++ "/_api/cursor")
     (JDict (<["bindVars" := JList [JInt 1]]> {[ "query" := JStr "RETURN @x" ]}))
     JNull].
Proof.
  apply (@query_bind_sent sample.bare "RETURN @x" None "[1]"
           (JList [JInt 1]) sample.nothing_yet).
  - discriminate.
  - vm_compute. reflexivity.
  - reflexivity.
Defined.
